(** * xecutbot: the /post relay handler (main.py)

    A shallow embedding of [post_handler] and of the values of the bot
    framework it touches, followed by the properties of the relay workflow:
    scope filter, authorization, announce, forward, confirm, and what happens
    when one of the awaited calls raises.

    The handler is written in a small monad that threads the state of the
    outside world (the messaging service) and the list of calls performed so
    far, and in which an awaited call either returns a value or raises. *)

From Stdlib Require Import ZArith String Ascii List Bool Lia.
From Stdlib Require Import DecimalString DecimalZ.
Import ListNotations.
Local Open Scope Z_scope.
Local Open Scope string_scope.

(* ------------------------------------------------------------------ *)
(** * Values of the bot framework *)
(* ------------------------------------------------------------------ *)

Module Telegram.

(** Modelled from the spec: the enumeration [telegram.constants.ChatMemberStatus]
    is imported from the bot framework and is not part of the sources. Its
    values are those of the spec's MembershipStatus (not-a-member, left,
    kicked/banned, member, administrator, owner, unknown/error); the
    framework's [restricted] is kept as well. The handler names only
    [MEMBER], [ADMINISTRATOR] and [OWNER]. *)
Inductive ChatMemberStatus : Type :=
| NOT_A_MEMBER
| LEFT
| BANNED
| RESTRICTED
| MEMBER
| ADMINISTRATOR
| OWNER
| UNKNOWN.

Definition ChatMemberStatus_eq_dec (a b : ChatMemberStatus) : {a = b} + {a <> b}.
Proof. decide equality. Defined.

(** [a == b] on statuses. *)
Definition status_eqb (a b : ChatMemberStatus) : bool :=
  if ChatMemberStatus_eq_dec a b then true else false.

(** [telegram.constants.ParseMode]. *)
Inductive ParseMode : Type := HTML | MARKDOWN | MARKDOWN_V2.

(** [telegram.User]: only [id] is read. *)
Record User : Type := { user_id : Z }.

(** [telegram.Message]: the fields the handler reads. [from_user] is set on
    every message of a group chat; [reply_to_message] is the message object
    this one replies to, when there is one. *)
#[warnings="-register-all"]
Inductive Message : Type :=
| mkMessage (chat_id : Z) (from_user : User) (message_id : Z)
            (reply_to_message : option Message).

Definition chat_id (m : Message) : Z :=
  match m with mkMessage c _ _ _ => c end.
Definition from_user (m : Message) : User :=
  match m with mkMessage _ u _ _ => u end.
Definition message_id (m : Message) : Z :=
  match m with mkMessage _ _ i _ => i end.
Definition reply_to_message (m : Message) : option Message :=
  match m with mkMessage _ _ _ r => r end.

(** [telegram.ChatMember]: only [status] is read. *)
Record ChatMember : Type := { status : ChatMemberStatus }.

(** [telegram.Update]: [effective_message] is set for every update a
    [CommandHandler] dispatches. *)
Record Update : Type := { effective_message : Message }.

(** What an awaited call raises (a [TelegramError], a network error...);
    [print] shows its message. *)
Inductive Exception : Type := TelegramError (message : string).

End Telegram.
Import Telegram.

(* ------------------------------------------------------------------ *)
(** * Python values: membership test and f-string formatting *)
(* ------------------------------------------------------------------ *)

(** [x in (a, b, ...)]. *)
Definition py_in {A : Type} (eqb : A -> A -> bool) (x : A) (t : list A) : bool :=
  existsb (eqb x) t.

(** [f"{n}"] for an [int]: its decimal digits, with a leading [-] when
    negative. *)
Definition py_str (n : Z) : string :=
  NilEmpty.string_of_int (Z.to_int n).

(** The double-quote character of the HTML attribute. *)
Definition dquote : string := String "034"%char EmptyString.

(* ------------------------------------------------------------------ *)
(** * Constants of main.py *)
(* ------------------------------------------------------------------ *)

Definition RESIDENT_CHAT_ID : Z := -1002614784999.
Definition XECUT_CHAT_ID : Z := -1002089160630.
Definition XECUT_CHANNEL_TAG : string := "xecut_live".

(** The literals of the handler, one per line of main.py that has one. *)

(** line 22 *)
Definition denial_notice : string :=
  "Для постинга в Xecut Live нужно быть резидентом хакспейса".

(** line 26: [f"https://t.me/xecut_chat/{msg.reply_to_message.message_id}"] *)
Definition announce_text (reply_target_id : Z) : string :=
  "https://t.me/xecut_chat/" ++ py_str reply_target_id.

(** line 34:
    [f'Запостил в <a href="https://t.me/{XECUT_CHANNEL_TAG}/{posted.message_id}">Xecut Live</a>'] *)
Definition success_text (posted_id : Z) : string :=
  "Запостил в <a href=" ++ dquote ++ "https://t.me/" ++ XECUT_CHANNEL_TAG
    ++ "/" ++ py_str posted_id ++ dquote ++ ">Xecut Live</a>".

(** line 36 *)
Definition usage_notice : string :=
  "Отправь эту команду реплаем на сообщение".

(** line 40 *)
Definition failure_notice : string :=
  "Произошла ошибка, попробуйте позже".

(** The destination of lines 26 and 29: ["@" + XECUT_CHANNEL_TAG]. *)
Definition channel : string := "@" ++ XECUT_CHANNEL_TAG.

(** Line 21, read positively: [member.status in (MEMBER, ADMINISTRATOR, OWNER)].
    The handler branches on its negation. This is the spec's [isAuthorized]. *)
Definition isAuthorized (s : ChatMemberStatus) : bool :=
  py_in status_eqb s [MEMBER; ADMINISTRATOR; OWNER].

(* ------------------------------------------------------------------ *)
(** * Awaited calls, their outcomes and the task monad *)
(* ------------------------------------------------------------------ *)

(** An awaited call returns or raises. *)
Inductive Outcome (A : Type) : Type :=
| Returned (a : A)
| Raised (exc : Exception).
Arguments Returned {A} a.
Arguments Raised {A} exc.

(** The calls a run of the handler performs, with their arguments, in the
    order in which they are made. [reply_text_call] records the message the
    reply answers ([msg.reply_text] replies to [msg]); [parse_mode] and
    [disable_web_page_preview] are [None]/[false] where the source leaves
    them out. [print_call] is the [print(exc)] of the [except] branch. *)
Inductive Call : Type :=
| get_chat_member_call (chat : Z) (user : Z)
| send_message_call (chat : string) (text : string)
                    (disable_web_page_preview : bool)
| forward_message_call (chat : string) (from_chat_id : Z) (msg_id : Z)
| reply_text_call (to : Message) (text : string)
                  (parse_mode : option ParseMode)
                  (disable_web_page_preview : bool)
| print_call (exc : Exception).

(** The messaging service as the handler sees it: each call may depend on,
    and change, the state [W] of the outside world, and returns or raises. *)
Record Bot (W : Type) : Type := {
  bot_get_chat_member : Z -> Z -> W -> Outcome ChatMember * W;
  bot_send_message : string -> string -> bool -> W -> Outcome Message * W;
  bot_forward_message : string -> Z -> Z -> W -> Outcome Message * W;
  msg_reply_text :
    Message -> string -> option ParseMode -> bool -> W -> Outcome Message * W
}.
Arguments bot_get_chat_member {W} _ _ _ _.
Arguments bot_send_message {W} _ _ _ _ _.
Arguments bot_forward_message {W} _ _ _ _ _.
Arguments msg_reply_text {W} _ _ _ _ _ _.

(** The state of a run: the outside world and the calls made so far. *)
Record Run (W : Type) : Type := { world : W; trace : list Call }.
Arguments world {W} _.
Arguments trace {W} _.

(** A coroutine of the handler: from the state of the run to an outcome and
    the state after it. *)
Definition Task (W A : Type) : Type := Run W -> Outcome A * Run W.

Definition ret {W A : Type} (a : A) : Task W A :=
  fun r => (Returned a, r).

(** Sequencing: what follows a call that raised is skipped. *)
Definition bind {W A B : Type} (c : Task W A) (k : A -> Task W B) : Task W B :=
  fun r =>
    match c r with
    | (Returned a, r') => k a r'
    | (Raised exc, r') => (Raised exc, r')
    end.

(** [try: body except Exception as exc: handler exc]. *)
Definition try_except {W A : Type} (body : Task W A)
           (handler : Exception -> Task W A) : Task W A :=
  fun r =>
    match body r with
    | (Returned a, r') => (Returned a, r')
    | (Raised exc, r') => handler exc r'
    end.

(** Performing one call: it is appended to the trace, and the world answers. *)
Definition perform {W A : Type} (c : Call) (answer : W -> Outcome A * W)
  : Task W A :=
  fun r =>
    match answer (world r) with
    | (o, w') => (o, {| world := w'; trace := (trace r ++ [c])%list |})
    end.

Declare Scope task_scope.
Delimit Scope task_scope with task.
Notation "x <- c ;; k" := (bind c (fun x => k))
  (at level 61, c at next level, right associativity) : task_scope.
Notation "c ;;; k" := (bind c (fun _ => k))
  (at level 61, right associativity) : task_scope.
Local Open Scope task_scope.

Section Handler.

Context {W : Type} (bot : Bot W).

Definition get_chat_member (chat user : Z) : Task W ChatMember :=
  perform (get_chat_member_call chat user) (bot_get_chat_member bot chat user).

Definition send_message (chat text : string) (disable_web_page_preview : bool)
  : Task W Message :=
  perform (send_message_call chat text disable_web_page_preview)
          (bot_send_message bot chat text disable_web_page_preview).

Definition forward_message (chat : string) (from_chat_id msg_id : Z)
  : Task W Message :=
  perform (forward_message_call chat from_chat_id msg_id)
          (bot_forward_message bot chat from_chat_id msg_id).

Definition reply_text (msg : Message) (text : string)
           (parse_mode : option ParseMode) (disable_web_page_preview : bool)
  : Task W Message :=
  perform (reply_text_call msg text parse_mode disable_web_page_preview)
          (msg_reply_text bot msg text parse_mode disable_web_page_preview).

(** [print(exc)] does not raise. *)
Definition print (exc : Exception) : Task W unit :=
  perform (print_call exc) (fun w => (Returned tt, w)).

(** main.py, lines 12-40. *)
Definition post_handler (update : Update) : Task W unit :=
  let msg := effective_message update in
  if negb (Z.eqb (chat_id msg) XECUT_CHAT_ID) then ret tt
  else
    try_except
      (member <- get_chat_member RESIDENT_CHAT_ID (user_id (from_user msg)) ;;
       if negb (py_in status_eqb (status member) [MEMBER; ADMINISTRATOR; OWNER])
       then
         reply_text msg denial_notice None false ;;;
         ret tt
       else
         match reply_to_message msg with
         | Some target =>
             send_message channel (announce_text (message_id target)) true ;;;
             posted <- forward_message channel (chat_id msg) (message_id target) ;;
             reply_text msg (success_text (message_id posted)) (Some HTML) true ;;;
             ret tt
         | None =>
             reply_text msg usage_notice None false ;;;
             ret tt
         end)
      (fun exc =>
         print exc ;;;
         reply_text msg failure_notice None false ;;;
         ret tt).

(** One run of the handler on an event, from the world [w] and no call made:
    the spec's [handle]. *)
Definition handle (update : Update) (w : W) : Outcome unit * Run W :=
  post_handler update {| world := w; trace := [] |}.

(** The calls of that run, in order. *)
Definition calls (update : Update) (w : W) : list Call :=
  trace (snd (handle update w)).

End Handler.

(* ------------------------------------------------------------------ *)
(** * Observing a run *)
(* ------------------------------------------------------------------ *)

Definition is_membership_query (c : Call) : bool :=
  match c with get_chat_member_call _ _ => true | _ => false end.

Definition is_send (c : Call) : bool :=
  match c with send_message_call _ _ _ => true | _ => false end.

Definition is_forward (c : Call) : bool :=
  match c with forward_message_call _ _ _ => true | _ => false end.

Definition is_reply (c : Call) : bool :=
  match c with reply_text_call _ _ _ _ => true | _ => false end.

(** The outbound transport calls of the workflow: membership query, send and
    forward. Replies to the invoking message are counted apart. *)
Definition is_transport_call (c : Call) : bool :=
  is_membership_query c || is_send c || is_forward c.

(** How many calls of a kind a trace has. *)
Definition count (kind : Call -> bool) (t : list Call) : nat :=
  length (filter kind t).

(** The texts replied to the user, in order. *)
Fixpoint reply_texts (t : list Call) : list string :=
  match t with
  | [] => []
  | reply_text_call _ text _ _ :: t' => text :: reply_texts t'
  | _ :: t' => reply_texts t'
  end.

(** The spec's link format [https://<host>/<channelTag>/<messageId>]. *)
Definition link (host tag : string) (id : Z) : string :=
  "https://" ++ host ++ "/" ++ tag ++ "/" ++ py_str id.

(** [sub] occurs in [s]. *)
Definition contains (sub s : string) : Prop :=
  exists pre post, s = pre ++ sub ++ post.

(** Reading the message id back from a success reply: what stands between
    the opening of the link to the channel and the quote that closes the
    [href] attribute, as a decimal number. *)
Fixpoint strip_prefix (p s : string) : option string :=
  match p, s with
  | EmptyString, _ => Some s
  | String a p', String b s' =>
      if Ascii.eqb a b then strip_prefix p' s' else None
  | String _ _, EmptyString => None
  end.

Fixpoint take_until (c : ascii) (s : string) : string :=
  match s with
  | EmptyString => EmptyString
  | String a s' => if Ascii.eqb a c then EmptyString else String a (take_until c s')
  end.

Definition parse_int (s : string) : option Z :=
  option_map Z.of_int (NilEmpty.int_of_string s).

Definition confirmation_link_id (text : string) : option Z :=
  match strip_prefix ("Запостил в <a href=" ++ dquote ++ "https://t.me/"
                        ++ XECUT_CHANNEL_TAG ++ "/") text with
  | Some rest => parse_int (take_until "034"%char rest)
  | None => None
  end.

(** No digit and no sign is the delimiter [c]. *)
Definition not_decimal (c : ascii) : Prop :=
  forall a, In a (list_ascii_of_string "-0123456789") -> Ascii.eqb a c = false.

(* ------------------------------------------------------------------ *)
(** * Naming the calls and the answers of a run *)
(* ------------------------------------------------------------------ *)

Section Names.

Context {W : Type} (bot : Bot W).

(** The calls of a run, with the arguments the handler passes. *)
Definition membership_query (update : Update) : Call :=
  get_chat_member_call RESIDENT_CHAT_ID
    (user_id (from_user (effective_message update))).

Definition announce (target : Message) : Call :=
  send_message_call channel (announce_text (message_id target)) true.

Definition forward (update : Update) (target : Message) : Call :=
  forward_message_call channel (chat_id (effective_message update))
    (message_id target).

Definition reply (update : Update) (text : string) : Call :=
  reply_text_call (effective_message update) text None false.

Definition success_reply (update : Update) (posted : Message) : Call :=
  reply_text_call (effective_message update)
    (success_text (message_id posted)) (Some HTML) true.

(** The world's answers, at the arguments the handler passes. *)
Definition query_answer (update : Update) (w : W) : Outcome ChatMember * W :=
  bot_get_chat_member bot RESIDENT_CHAT_ID
    (user_id (from_user (effective_message update))) w.

Definition announce_answer (target : Message) (w : W) : Outcome Message * W :=
  bot_send_message bot channel (announce_text (message_id target)) true w.

Definition forward_answer_at (update : Update) (target : Message) (w : W)
  : Outcome Message * W :=
  bot_forward_message bot channel (chat_id (effective_message update))
    (message_id target) w.

Definition reply_answer (update : Update) (text : string) (w : W)
  : Outcome Message * W :=
  msg_reply_text bot (effective_message update) text None false w.

Definition success_reply_answer (update : Update) (posted : Message) (w : W)
  : Outcome Message * W :=
  msg_reply_text bot (effective_message update)
    (success_text (message_id posted)) (Some HTML) true w.

(** What follows a reply made inside the [try] block, by its outcome: when
    the reply returned, nothing; when it raised, the [except] branch prints
    the error and makes the generic failure reply. *)
Definition after_reply (update : Update) (o : Outcome Message) : list Call :=
  match o with
  | Returned _ => []
  | Raised exc => [print_call exc; reply update failure_notice]
  end.

(** The event comes from the configured source chat. *)
Definition from_source_chat (update : Update) : Prop :=
  chat_id (effective_message update) = XECUT_CHAT_ID.

End Names.

(* ------------------------------------------------------------------ *)
(** * A scripted messaging service, for concrete runs *)
(* ------------------------------------------------------------------ *)

(** What the service will answer: one answer for each of the membership
    query, the send and the forward, and the answers to the successive
    replies (a reply beyond the script is delivered). *)
Record Script : Type := {
  member_answer : Outcome ChatMember;
  send_answer : Outcome Message;
  forward_answer : Outcome Message;
  reply_answers : list (Outcome Message)
}.

(** A message sent by the bot itself. *)
Definition bot_message (chat id : Z) : Message :=
  mkMessage chat {| user_id := 1 |} id None.

Definition scripted : Bot Script := {|
  bot_get_chat_member := fun _ _ s => (member_answer s, s);
  bot_send_message := fun _ _ _ s => (send_answer s, s);
  bot_forward_message := fun _ _ _ s => (forward_answer s, s);
  msg_reply_text := fun to _ _ _ s =>
    match reply_answers s with
    | [] => (Returned (bot_message (chat_id to) 900), s)
    | a :: rest =>
        (a, {| member_answer := member_answer s;
               send_answer := send_answer s;
               forward_answer := forward_answer s;
               reply_answers := rest |})
    end
|}.

(** Events and answers used in the concrete runs. *)
Definition alice : User := {| user_id := 42 |}.

Definition original : Message :=
  mkMessage XECUT_CHAT_ID {| user_id := 7 |} 100 None.

Definition post_as_reply : Update :=
  {| effective_message := mkMessage XECUT_CHAT_ID alice 101 (Some original) |}.

Definition post_alone : Update :=
  {| effective_message := mkMessage XECUT_CHAT_ID alice 101 None |}.

Definition post_elsewhere : Update :=
  {| effective_message := mkMessage (-1001) alice 101 (Some original) |}.

Definition timed_out : Exception := TelegramError "Timed out".

Definition all_fine (s : ChatMemberStatus) : Script := {|
  member_answer := Returned {| status := s |};
  send_answer := Returned (bot_message 0 554);
  forward_answer := Returned (bot_message 0 555);
  reply_answers := []
|}.

Definition first_reply_fails (s : ChatMemberStatus) : Script := {|
  member_answer := Returned {| status := s |};
  send_answer := Returned (bot_message 0 554);
  forward_answer := Returned (bot_message 0 555);
  reply_answers := [Raised timed_out]
|}.

Definition query_fails : Script := {|
  member_answer := Raised timed_out;
  send_answer := Returned (bot_message 0 554);
  forward_answer := Returned (bot_message 0 555);
  reply_answers := []
|}.

Definition send_fails : Script := {|
  member_answer := Returned {| status := MEMBER |};
  send_answer := Raised timed_out;
  forward_answer := Returned (bot_message 0 555);
  reply_answers := []
|}.

Definition forward_fails : Script := {|
  member_answer := Returned {| status := ADMINISTRATOR |};
  send_answer := Returned (bot_message 0 554);
  forward_answer := Raised timed_out;
  reply_answers := []
|}.

(* ------------------------------------------------------------------ *)
(** * More observations of a run *)
(* ------------------------------------------------------------------ *)

Definition is_print (c : Call) : bool :=
  match c with print_call _ => true | _ => false end.

(** Where a call of a run on [update] may go: the membership query asks the
    resident group about the invoking user, a send posts the link to the
    reply target in the channel, without preview, a forward takes the reply
    target from the source chat to the channel, and a reply answers the
    invoking message. *)
Definition addressed (update : Update) (c : Call) : Prop :=
  match c with
  | get_chat_member_call chat user =>
      chat = RESIDENT_CHAT_ID
      /\ user = user_id (from_user (effective_message update))
  | send_message_call chat text preview_disabled =>
      chat = channel /\ preview_disabled = true
      /\ exists target,
          reply_to_message (effective_message update) = Some target
          /\ text = announce_text (message_id target)
  | forward_message_call chat from_chat msg_id =>
      chat = channel /\ from_chat = XECUT_CHAT_ID
      /\ exists target,
          reply_to_message (effective_message update) = Some target
          /\ msg_id = message_id target
  | reply_text_call to _ _ _ => to = effective_message update
  | print_call _ => True
  end.

(** The three notices of the [try] block. *)
Definition primary_notice (text : string) : Prop :=
  text = denial_notice \/ text = usage_notice
  \/ exists posted_id, text = success_text posted_id.


(* ------------------------------------------------------------------ *)
(** * Start-up (main.py, lines 43-49) *)
(* ------------------------------------------------------------------ *)

(** The [RuntimeError] of line 45. *)
Inductive StartupError : Type := RuntimeError (message : string).

(** The application once built: the token it was given and the commands it
    has a handler for. The callback registered for [post] is
    [post_handler]. *)
Record Application : Type := {
  app_token : string;
  app_commands : list string
}.

(** [not token] for the value of [os.getenv]: true for [None] and for the
    empty string. *)
Definition py_not (token : option string) : bool :=
  match token with
  | None => true
  | Some EmptyString => true
  | Some (String _ _) => false
  end.

(** Lines 43-48: the token is read from the environment; without it the
    script raises before the application is built; with it the application
    is built and the handler of [post] is added. [run_polling] then runs the
    application. *)
Definition main (getenv : string -> option string)
  : StartupError + Application :=
  let token := getenv "XECUT_TG_API_KEY" in
  if py_not token then
    inl (RuntimeError "Set XECUT_TG_API_KEY env variable with the bot token")
  else
    inr {| app_token := match token with Some t => t | None => "" end;
           app_commands := ["post"] |}.

(* ------------------------------------------------------------------ *)
(** * Strings: prefixes, delimiters and decimal numbers *)
(* ------------------------------------------------------------------ *)

Lemma strip_prefix_app (p s : string) : strip_prefix p (p ++ s) = Some s.
Proof.
  induction p as [|a p IH]; simpl.
  - reflexivity.
  - rewrite Ascii.eqb_refl. exact IH.
Qed.

Lemma take_until_uint (c : ascii) (d : Decimal.uint) (rest : string) :
  not_decimal c ->
  take_until c (NilEmpty.string_of_uint d ++ String c rest)
  = NilEmpty.string_of_uint d.
Proof.
  intros Hc.
  induction d as [|d IH|d IH|d IH|d IH|d IH|d IH|d IH|d IH|d IH|d IH];
    cbn [NilEmpty.string_of_uint append take_until].
  all: try (rewrite Hc by (simpl; tauto); rewrite IH; reflexivity).
  rewrite Ascii.eqb_refl. reflexivity.
Qed.

Lemma take_until_py_str (c : ascii) (n : Z) (rest : string) :
  not_decimal c ->
  take_until c (py_str n ++ String c rest) = py_str n.
Proof.
  intros Hc. unfold py_str.
  destruct (Z.to_int n) as [d|d];
    cbn [NilEmpty.string_of_int append take_until].
  - apply take_until_uint; assumption.
  - rewrite Hc by (simpl; tauto).
    rewrite take_until_uint by assumption. reflexivity.
Qed.

Lemma dquote_not_decimal : not_decimal "034"%char.
Proof.
  intros a Ha. simpl in Ha.
  repeat (destruct Ha as [<-|Ha]; [reflexivity|]). contradiction.
Qed.

Lemma parse_int_py_str (n : Z) : parse_int (py_str n) = Some n.
Proof.
  unfold parse_int, py_str.
  rewrite NilEmpty.isi. simpl. rewrite DecimalZ.of_to. reflexivity.
Qed.

(** The id read back from a success reply is the id it was built from. *)
Lemma confirmation_link_id_success_text (posted_id : Z) :
  confirmation_link_id (success_text posted_id) = Some posted_id.
Proof.
  unfold confirmation_link_id, success_text.
  change ("Запостил в <a href=" ++ dquote ++ "https://t.me/" ++ XECUT_CHANNEL_TAG
            ++ "/" ++ py_str posted_id ++ dquote ++ ">Xecut Live</a>")
    with (("Запостил в <a href=" ++ dquote ++ "https://t.me/" ++ XECUT_CHANNEL_TAG
             ++ "/") ++ py_str posted_id ++ String "034"%char ">Xecut Live</a>").
  rewrite strip_prefix_app.
  rewrite take_until_py_str by exact dquote_not_decimal.
  apply parse_int_py_str.
Qed.

Lemma success_text_contains_link (posted_id : Z) :
  contains (link "t.me" XECUT_CHANNEL_TAG posted_id) (success_text posted_id).
Proof.
  exists ("Запостил в <a href=" ++ dquote), (dquote ++ ">Xecut Live</a>").
  reflexivity.
Qed.

(* ------------------------------------------------------------------ *)
(** * The authorization decision *)
(* ------------------------------------------------------------------ *)

(** C3. The authorization decision of line 21 is true exactly for the
    statuses member, administrator and owner; left, kicked/banned,
    not-a-member, restricted and unknown/error are all refused. *)
Theorem isAuthorized_exactly_residents :
  (forall s : ChatMemberStatus,
      isAuthorized s = true <-> s = MEMBER \/ s = ADMINISTRATOR \/ s = OWNER)
  /\ isAuthorized MEMBER = true
  /\ isAuthorized ADMINISTRATOR = true
  /\ isAuthorized OWNER = true
  /\ isAuthorized LEFT = false
  /\ isAuthorized BANNED = false
  /\ isAuthorized NOT_A_MEMBER = false
  /\ isAuthorized RESTRICTED = false
  /\ isAuthorized UNKNOWN = false.
Proof.
  split; [|repeat split; reflexivity].
  intros s; split.
  - destruct s; cbv; intros H; try discriminate H; tauto.
  - intros [-> | [-> | ->]]; reflexivity.
Qed.

(* ------------------------------------------------------------------ *)
(** * Runs of the handler *)
(* ------------------------------------------------------------------ *)

Lemma source_chat_eqb (update : Update) :
  from_source_chat update ->
  Z.eqb (chat_id (effective_message update)) XECUT_CHAT_ID = true.
Proof. intros H. apply Z.eqb_eq. exact H. Qed.

Lemma other_chat_eqb (update : Update) :
  ~ from_source_chat update ->
  Z.eqb (chat_id (effective_message update)) XECUT_CHAT_ID = false.
Proof. intros H. apply Z.eqb_neq. exact H. Qed.

Ltac unfold_handler :=
  unfold calls, handle, post_handler, try_except, bind, get_chat_member,
    send_message, forward_message, reply_text, print, perform, ret;
  cbn [world trace app].

Ltac reduce_run := cbn [world trace app negb fst snd].

Ltac unfold_answers :=
  unfold query_answer, announce_answer, forward_answer_at,
    reply_answer, success_reply_answer, isAuthorized in *.

Section Properties.

Context {W : Type} (bot : Bot W).

(** C1. From the source chat, with an authorized user, a reply target and
    every call returning, the run makes exactly these calls, in this order:
    the membership query, the announce send to the channel, the forward of
    the reply target, the success reply; and the text of that reply contains
    the link https://t.me/<channelTag>/<id> for the id of the message the
    forward returned (the announcement is the link
    https://t.me/xecut_chat/<id> for the id of the reply target). *)
Theorem relay_succeeds (update : Update) (target : Message)
        (member : ChatMember) (sent posted answer : Message) (w w1 w2 w3 w4 : W) :
  from_source_chat update ->
  reply_to_message (effective_message update) = Some target ->
  query_answer bot update w = (Returned member, w1) ->
  isAuthorized (status member) = true ->
  announce_answer bot target w1 = (Returned sent, w2) ->
  forward_answer_at bot update target w2 = (Returned posted, w3) ->
  success_reply_answer bot update posted w3 = (Returned answer, w4) ->
  handle bot update w
  = (Returned tt,
     {| world := w4;
        trace := [membership_query update; announce target;
                  forward update target; success_reply update posted] |})
  /\ contains (link "t.me" XECUT_CHANNEL_TAG (message_id posted))
              (success_text (message_id posted))
  /\ announce_text (message_id target)
     = link "t.me" "xecut_chat" (message_id target).
Proof.
  intros Hchat Htarget Hq Hauth Hsend Hfwd Hreply.
  split; [|split; [apply success_text_contains_link | reflexivity]].
  unfold_answers. unfold_handler.
  rewrite (source_chat_eqb _ Hchat). reduce_run.
  rewrite Hq. reduce_run. rewrite Hauth. reduce_run.
  rewrite Htarget. reduce_run. rewrite Hsend. reduce_run.
  rewrite Hfwd. reduce_run. rewrite Hreply. reflexivity.
Qed.

(** C6. An event whose chat is not the configured source chat makes no
    call at all: no membership query, no send, no forward, no reply; the
    handler returns and the world is as it was. *)
Theorem other_chat_is_ignored (update : Update) (w : W) :
  ~ from_source_chat update ->
  handle bot update w = (Returned tt, {| world := w; trace := [] |}).
Proof.
  intros Hchat. unfold_handler.
  rewrite (other_chat_eqb _ Hchat). reflexivity.
Qed.

(** C7. When the announce send raises, the forward is not attempted: after
    the membership query and the failed send, the error is printed and one
    generic failure reply is made, and nothing else. *)
Theorem announce_failure_aborts (update : Update) (target : Message)
        (member : ChatMember) (exc : Exception) (w w1 w2 : W) :
  from_source_chat update ->
  reply_to_message (effective_message update) = Some target ->
  query_answer bot update w = (Returned member, w1) ->
  isAuthorized (status member) = true ->
  announce_answer bot target w1 = (Raised exc, w2) ->
  calls bot update w
  = [membership_query update; announce target; print_call exc;
     reply update failure_notice]
  /\ count is_forward (calls bot update w) = 0%nat
  /\ reply_texts (calls bot update w) = [failure_notice].
Proof.
  intros Hchat Htarget Hq Hauth Hsend.
  assert (Hcalls : calls bot update w
                   = [membership_query update; announce target; print_call exc;
                      reply update failure_notice]).
  { unfold_answers. unfold_handler.
    rewrite (source_chat_eqb _ Hchat). reduce_run.
    rewrite Hq. reduce_run. rewrite Hauth. reduce_run.
    rewrite Htarget. reduce_run. rewrite Hsend. reduce_run.
    destruct (msg_reply_text bot (effective_message update) failure_notice
                None false w2) as [[answer|exc'] w3]; reflexivity. }
  rewrite Hcalls. repeat split.
Qed.

(** C8. When the forward raises after the announce was sent, the error is
    printed and exactly one generic failure reply is made; the send and the
    forward are each made once (nothing is retried), no call follows that
    would touch the announcement, and the world is left as the failed forward
    left it, the failure reply apart. *)
Theorem forward_failure_keeps_announcement (update : Update) (target : Message)
        (member : ChatMember) (sent : Message) (exc : Exception)
        (w w1 w2 w3 : W) :
  from_source_chat update ->
  reply_to_message (effective_message update) = Some target ->
  query_answer bot update w = (Returned member, w1) ->
  isAuthorized (status member) = true ->
  announce_answer bot target w1 = (Returned sent, w2) ->
  forward_answer_at bot update target w2 = (Raised exc, w3) ->
  calls bot update w
  = [membership_query update; announce target; forward update target;
     print_call exc; reply update failure_notice]
  /\ count is_send (calls bot update w) = 1%nat
  /\ count is_forward (calls bot update w) = 1%nat
  /\ reply_texts (calls bot update w) = [failure_notice]
  /\ world (snd (handle bot update w))
     = snd (reply_answer bot update failure_notice w3).
Proof.
  intros Hchat Htarget Hq Hauth Hsend Hfwd.
  assert (Hrun : snd (handle bot update w)
                 = {| world := snd (reply_answer bot update failure_notice w3);
                      trace := [membership_query update; announce target;
                                forward update target; print_call exc;
                                reply update failure_notice] |}).
  { unfold_answers. unfold_handler.
    rewrite (source_chat_eqb _ Hchat). reduce_run.
    rewrite Hq. reduce_run. rewrite Hauth. reduce_run.
    rewrite Htarget. reduce_run. rewrite Hsend. reduce_run.
    rewrite Hfwd. reduce_run.
    destruct (msg_reply_text bot (effective_message update) failure_notice
                None false w3) as [[answer|exc'] w4]; reflexivity. }
  unfold calls. rewrite Hrun. repeat split.
Qed.

(** C9. In a successful run the only reply is the success reply, and the
    message id read back from its confirmation link is the id of the message
    the forward returned; when the reply target has another id, it is not
    the id of the reply target. *)
Theorem confirmation_link_names_forwarded_copy (update : Update)
        (target : Message) (member : ChatMember) (sent posted answer : Message)
        (w w1 w2 w3 w4 : W) :
  from_source_chat update ->
  reply_to_message (effective_message update) = Some target ->
  query_answer bot update w = (Returned member, w1) ->
  isAuthorized (status member) = true ->
  announce_answer bot target w1 = (Returned sent, w2) ->
  forward_answer_at bot update target w2 = (Returned posted, w3) ->
  success_reply_answer bot update posted w3 = (Returned answer, w4) ->
  exists text,
    reply_texts (calls bot update w) = [text]
    /\ confirmation_link_id text = Some (message_id posted)
    /\ (message_id posted <> message_id target ->
        confirmation_link_id text <> Some (message_id target)).
Proof.
  intros Hchat Htarget Hq Hauth Hsend Hfwd Hreply.
  exists (success_text (message_id posted)).
  rewrite confirmation_link_id_success_text.
  split; [|split; [reflexivity | congruence]].
  unfold_answers. unfold_handler.
  rewrite (source_chat_eqb _ Hchat). reduce_run.
  rewrite Hq. reduce_run. rewrite Hauth. reduce_run.
  rewrite Htarget. reduce_run. rewrite Hsend. reduce_run.
  rewrite Hfwd. reduce_run. rewrite Hreply. reflexivity.
Qed.

(** The run of an unauthorized user, whether or not the command is a reply. *)
Lemma denied_run (update : Update) (member : ChatMember) (o : Outcome Message)
      (w w1 w2 : W) :
  from_source_chat update ->
  query_answer bot update w = (Returned member, w1) ->
  isAuthorized (status member) = false ->
  reply_answer bot update denial_notice w1 = (o, w2) ->
  calls bot update w
  = ([membership_query update; reply update denial_notice]
       ++ after_reply update o)%list
  /\ (forall answer, o = Returned answer ->
      handle bot update w
      = (Returned tt,
         {| world := w2;
            trace := [membership_query update; reply update denial_notice] |})).
Proof.
  intros Hchat Hq Hauth Hreply.
  unfold_answers. unfold_handler.
  rewrite (source_chat_eqb _ Hchat). reduce_run.
  rewrite Hq. reduce_run. rewrite Hauth. reduce_run.
  rewrite Hreply. reduce_run.
  destruct o as [answer|exc]; reduce_run.
  - split; [reflexivity|]. intros _ _. reflexivity.
  - split; [|intros answer H; discriminate H].
    destruct (msg_reply_text bot (effective_message update) failure_notice
                None false w2) as [[answer|exc'] w3]; reflexivity.
Qed.

(** The run of an authorized user whose command is not a reply. *)
Lemma usage_run (update : Update) (member : ChatMember) (o : Outcome Message)
      (w w1 w2 : W) :
  from_source_chat update ->
  reply_to_message (effective_message update) = None ->
  query_answer bot update w = (Returned member, w1) ->
  isAuthorized (status member) = true ->
  reply_answer bot update usage_notice w1 = (o, w2) ->
  calls bot update w
  = ([membership_query update; reply update usage_notice]
       ++ after_reply update o)%list
  /\ (forall answer, o = Returned answer ->
      handle bot update w
      = (Returned tt,
         {| world := w2;
            trace := [membership_query update; reply update usage_notice] |})).
Proof.
  intros Hchat Htarget Hq Hauth Hreply.
  unfold_answers. unfold_handler.
  rewrite (source_chat_eqb _ Hchat). reduce_run.
  rewrite Hq. reduce_run. rewrite Hauth. reduce_run.
  rewrite Htarget. reduce_run. rewrite Hreply. reduce_run.
  destruct o as [answer|exc]; reduce_run.
  - split; [reflexivity|]. intros _ _. reflexivity.
  - split; [|intros answer H; discriminate H].
    destruct (msg_reply_text bot (effective_message update) failure_notice
                None false w2) as [[answer|exc'] w3]; reflexivity.
Qed.

(** C2, as the code has it. When the membership query raises, nothing is
    announced or forwarded, as for a user who is not a member; but the error
    is printed and the user is sent the generic failure notice, which is not
    the denial notice a non-member is sent. *)
Theorem query_failure_gets_failure_notice (update : Update) (exc : Exception)
        (w w1 : W) :
  from_source_chat update ->
  query_answer bot update w = (Raised exc, w1) ->
  calls bot update w
  = [membership_query update; print_call exc; reply update failure_notice]
  /\ count is_send (calls bot update w) = 0%nat
  /\ count is_forward (calls bot update w) = 0%nat
  /\ reply_texts (calls bot update w) = [failure_notice]
  /\ failure_notice <> denial_notice.
Proof.
  intros Hchat Hq.
  assert (Hcalls : calls bot update w
                   = [membership_query update; print_call exc;
                      reply update failure_notice]).
  { unfold_answers. unfold_handler.
    rewrite (source_chat_eqb _ Hchat). reduce_run.
    rewrite Hq. reduce_run.
    destruct (msg_reply_text bot (effective_message update) failure_notice
                None false w1) as [[answer|exc'] w2]; reflexivity. }
  rewrite Hcalls. repeat split. discriminate.
Qed.

(** C4, as the code has it. An unauthorized user whose command is a reply:
    one membership query, no announce send, no forward, and the reply with
    the denial notice. When that reply is delivered it is the only reply and
    the handler returns there; when the reply call itself raises, the error
    is printed and one generic failure reply follows. *)
Theorem unauthorized_is_denied (update : Update) (target : Message)
        (member : ChatMember) (o : Outcome Message) (w w1 w2 : W) :
  from_source_chat update ->
  reply_to_message (effective_message update) = Some target ->
  query_answer bot update w = (Returned member, w1) ->
  isAuthorized (status member) = false ->
  reply_answer bot update denial_notice w1 = (o, w2) ->
  calls bot update w
  = ([membership_query update; reply update denial_notice]
       ++ after_reply update o)%list
  /\ count is_membership_query (calls bot update w) = 1%nat
  /\ count is_send (calls bot update w) = 0%nat
  /\ count is_forward (calls bot update w) = 0%nat
  /\ (forall answer, o = Returned answer ->
      handle bot update w
      = (Returned tt,
         {| world := w2;
            trace := [membership_query update; reply update denial_notice] |})).
Proof.
  intros Hchat _ Hq Hauth Hreply.
  destruct (denied_run update member o w w1 w2 Hchat Hq Hauth Hreply)
    as [Hcalls Hdelivered].
  rewrite Hcalls. split; [reflexivity|].
  repeat split; try (destruct o; reflexivity). exact Hdelivered.
Qed.

(** C5, as the code has it. An authorized user whose command is not a reply:
    the membership query is the only transport call (no announce send, no
    forward), and the reply with the usage notice follows. When that reply
    is delivered it is the only reply and the handler returns there; when
    the reply call itself raises, the error is printed and one generic
    failure reply follows. *)
Theorem missing_reply_target_gets_usage (update : Update)
        (member : ChatMember) (o : Outcome Message) (w w1 w2 : W) :
  from_source_chat update ->
  reply_to_message (effective_message update) = None ->
  query_answer bot update w = (Returned member, w1) ->
  isAuthorized (status member) = true ->
  reply_answer bot update usage_notice w1 = (o, w2) ->
  calls bot update w
  = ([membership_query update; reply update usage_notice]
       ++ after_reply update o)%list
  /\ filter is_transport_call (calls bot update w) = [membership_query update]
  /\ count is_send (calls bot update w) = 0%nat
  /\ count is_forward (calls bot update w) = 0%nat
  /\ (forall answer, o = Returned answer ->
      handle bot update w
      = (Returned tt,
         {| world := w2;
            trace := [membership_query update; reply update usage_notice] |})).
Proof.
  intros Hchat Htarget Hq Hauth Hreply.
  destruct (usage_run update member o w w1 w2 Hchat Htarget Hq Hauth Hreply)
    as [Hcalls Hdelivered].
  rewrite Hcalls. split; [reflexivity|].
  repeat split; try (destruct o; reflexivity). exact Hdelivered.
Qed.

(** C10. Authorization is checked before the reply target: an unauthorized
    user whose command is not a reply is sent the denial notice first, is
    never sent the usage notice, and the membership query is the only
    transport call of the run. *)
Theorem denial_precedes_usage_check (update : Update) (member : ChatMember)
        (w w1 : W) :
  from_source_chat update ->
  reply_to_message (effective_message update) = None ->
  query_answer bot update w = (Returned member, w1) ->
  isAuthorized (status member) = false ->
  (exists rest,
      calls bot update w
      = ([membership_query update; reply update denial_notice] ++ rest)%list)
  /\ hd_error (reply_texts (calls bot update w)) = Some denial_notice
  /\ ~ In usage_notice (reply_texts (calls bot update w))
  /\ filter is_transport_call (calls bot update w) = [membership_query update].
Proof.
  intros Hchat _ Hq Hauth.
  destruct (reply_answer bot update denial_notice w1) as [o w2] eqn:Hreply.
  destruct (denied_run update member o w w1 w2 Hchat Hq Hauth Hreply)
    as [Hcalls _].
  rewrite Hcalls. split; [eexists; reflexivity|].
  destruct o as [answer|exc]; cbn [after_reply app reply_texts reply hd_error];
    (split; [reflexivity|]); (split; [|reflexivity]).
  - intros [H|[]]. discriminate H.
  - intros [H|[H|[]]]; discriminate H.
Qed.

End Properties.

(* ------------------------------------------------------------------ *)
(** * Concrete runs against the scripted service *)
(* ------------------------------------------------------------------ *)

(** A member posts as a reply and every call returns. *)
Lemma relay_succeeds_witness :
  from_source_chat post_as_reply
  /\ isAuthorized MEMBER = true
  /\ handle scripted post_as_reply (all_fine MEMBER)
     = (Returned tt,
        {| world := all_fine MEMBER;
           trace := [membership_query post_as_reply; announce original;
                     forward post_as_reply original;
                     success_reply post_as_reply (bot_message 0 555)] |})
  /\ contains (link "t.me" XECUT_CHANNEL_TAG 555) (success_text 555)
  /\ announce_text 100 = link "t.me" "xecut_chat" 100.
Proof.
  split; [reflexivity|]. split; [reflexivity|].
  apply (relay_succeeds scripted post_as_reply original {| status := MEMBER |}
           (bot_message 0 554) (bot_message 0 555)
           (bot_message XECUT_CHAT_ID 900)
           (all_fine MEMBER) (all_fine MEMBER) (all_fine MEMBER)
           (all_fine MEMBER) (all_fine MEMBER));
    reflexivity.
Defined.

(** The same command in another chat. *)
Lemma other_chat_is_ignored_witness :
  ~ from_source_chat post_elsewhere
  /\ handle scripted post_elsewhere (all_fine OWNER)
     = (Returned tt, {| world := all_fine OWNER; trace := [] |}).
Proof.
  assert (H : ~ from_source_chat post_elsewhere) by (intros H; discriminate H).
  split; [exact H|].
  apply (other_chat_is_ignored scripted post_elsewhere (all_fine OWNER) H).
Defined.

(** The send to the channel times out. *)
Lemma announce_failure_aborts_witness :
  calls scripted post_as_reply send_fails
  = [membership_query post_as_reply; announce original; print_call timed_out;
     reply post_as_reply failure_notice]
  /\ count is_forward (calls scripted post_as_reply send_fails) = 0%nat
  /\ reply_texts (calls scripted post_as_reply send_fails) = [failure_notice].
Proof.
  apply (announce_failure_aborts scripted post_as_reply original
           {| status := MEMBER |} timed_out send_fails send_fails send_fails);
    reflexivity.
Defined.

(** The forward times out after the announcement went out. *)
Lemma forward_failure_keeps_announcement_witness :
  calls scripted post_as_reply forward_fails
  = [membership_query post_as_reply; announce original;
     forward post_as_reply original; print_call timed_out;
     reply post_as_reply failure_notice]
  /\ count is_send (calls scripted post_as_reply forward_fails) = 1%nat
  /\ count is_forward (calls scripted post_as_reply forward_fails) = 1%nat
  /\ reply_texts (calls scripted post_as_reply forward_fails) = [failure_notice]
  /\ world (snd (handle scripted post_as_reply forward_fails))
     = snd (reply_answer scripted post_as_reply failure_notice forward_fails).
Proof.
  apply (forward_failure_keeps_announcement scripted post_as_reply original
           {| status := ADMINISTRATOR |} (bot_message 0 554) timed_out
           forward_fails forward_fails forward_fails forward_fails);
    reflexivity.
Defined.

(** The reply target is message 100, its forwarded copy is message 555. *)
Lemma confirmation_link_names_forwarded_copy_witness :
  exists text,
    reply_texts (calls scripted post_as_reply (all_fine OWNER)) = [text]
    /\ confirmation_link_id text = Some 555
    /\ (555 <> 100 -> confirmation_link_id text <> Some 100).
Proof.
  apply (confirmation_link_names_forwarded_copy scripted post_as_reply original
           {| status := OWNER |} (bot_message 0 554) (bot_message 0 555)
           (bot_message XECUT_CHAT_ID 900)
           (all_fine OWNER) (all_fine OWNER) (all_fine OWNER)
           (all_fine OWNER) (all_fine OWNER));
    reflexivity.
Defined.

(** The membership query times out. *)
Lemma query_failure_gets_failure_notice_witness :
  calls scripted post_as_reply query_fails
  = [membership_query post_as_reply; print_call timed_out;
     reply post_as_reply failure_notice]
  /\ count is_send (calls scripted post_as_reply query_fails) = 0%nat
  /\ count is_forward (calls scripted post_as_reply query_fails) = 0%nat
  /\ reply_texts (calls scripted post_as_reply query_fails) = [failure_notice]
  /\ failure_notice <> denial_notice.
Proof.
  apply (query_failure_gets_failure_notice scripted post_as_reply timed_out
           query_fails query_fails);
    reflexivity.
Defined.

(** C2, as stated, fails: with the membership query timing out the user is
    sent the failure notice, while a user who has left the resident group is
    sent the denial notice. *)
Lemma query_failure_is_not_denied_counterexample :
  query_answer scripted post_as_reply query_fails = (Raised timed_out, query_fails)
  /\ reply_texts (calls scripted post_as_reply query_fails) = [failure_notice]
  /\ reply_texts (calls scripted post_as_reply (all_fine LEFT)) = [denial_notice]
  /\ reply_texts (calls scripted post_as_reply query_fails)
     <> reply_texts (calls scripted post_as_reply (all_fine LEFT)).
Proof.
  repeat split. discriminate.
Qed.

(** A user who has left the resident group posts as a reply; the denial is
    delivered. *)
Lemma unauthorized_is_denied_witness :
  isAuthorized LEFT = false
  /\ calls scripted post_as_reply (all_fine LEFT)
     = [membership_query post_as_reply; reply post_as_reply denial_notice]
  /\ count is_membership_query (calls scripted post_as_reply (all_fine LEFT))
     = 1%nat
  /\ count is_send (calls scripted post_as_reply (all_fine LEFT)) = 0%nat
  /\ count is_forward (calls scripted post_as_reply (all_fine LEFT)) = 0%nat
  /\ (forall answer, Returned (bot_message XECUT_CHAT_ID 900) = Returned answer ->
      handle scripted post_as_reply (all_fine LEFT)
      = (Returned tt,
         {| world := all_fine LEFT;
            trace := [membership_query post_as_reply;
                      reply post_as_reply denial_notice] |})).
Proof.
  split; [reflexivity|].
  apply (unauthorized_is_denied scripted post_as_reply original
           {| status := LEFT |} (Returned (bot_message XECUT_CHAT_ID 900))
           (all_fine LEFT) (all_fine LEFT) (all_fine LEFT));
    reflexivity.
Defined.

(** C4, as stated, fails: a user who has left the resident group posts as a
    reply and the denial reply times out; the run goes on after it and makes
    two replies. *)
Lemma denial_reply_failure_counterexample :
  from_source_chat post_as_reply
  /\ reply_to_message (effective_message post_as_reply) = Some original
  /\ query_answer scripted post_as_reply (first_reply_fails LEFT)
     = (Returned {| status := LEFT |}, first_reply_fails LEFT)
  /\ isAuthorized LEFT = false
  /\ calls scripted post_as_reply (first_reply_fails LEFT)
     = [membership_query post_as_reply; reply post_as_reply denial_notice;
        print_call timed_out; reply post_as_reply failure_notice]
  /\ count is_reply (calls scripted post_as_reply (first_reply_fails LEFT))
     <> 1%nat.
Proof.
  repeat split. discriminate.
Qed.

(** A member posts without replying to a message; the usage notice is
    delivered. *)
Lemma missing_reply_target_gets_usage_witness :
  isAuthorized MEMBER = true
  /\ calls scripted post_alone (all_fine MEMBER)
     = [membership_query post_alone; reply post_alone usage_notice]
  /\ filter is_transport_call (calls scripted post_alone (all_fine MEMBER))
     = [membership_query post_alone]
  /\ count is_send (calls scripted post_alone (all_fine MEMBER)) = 0%nat
  /\ count is_forward (calls scripted post_alone (all_fine MEMBER)) = 0%nat
  /\ (forall answer, Returned (bot_message XECUT_CHAT_ID 900) = Returned answer ->
      handle scripted post_alone (all_fine MEMBER)
      = (Returned tt,
         {| world := all_fine MEMBER;
            trace := [membership_query post_alone;
                      reply post_alone usage_notice] |})).
Proof.
  split; [reflexivity|].
  apply (missing_reply_target_gets_usage scripted post_alone
           {| status := MEMBER |} (Returned (bot_message XECUT_CHAT_ID 900))
           (all_fine MEMBER) (all_fine MEMBER) (all_fine MEMBER));
    reflexivity.
Defined.

(** C5, as stated, fails: a member posts without replying to a message and
    the usage reply times out; the run makes two replies, the second one the
    failure notice. *)
Lemma usage_reply_failure_counterexample :
  from_source_chat post_alone
  /\ reply_to_message (effective_message post_alone) = None
  /\ query_answer scripted post_alone (first_reply_fails MEMBER)
     = (Returned {| status := MEMBER |}, first_reply_fails MEMBER)
  /\ isAuthorized MEMBER = true
  /\ calls scripted post_alone (first_reply_fails MEMBER)
     = [membership_query post_alone; reply post_alone usage_notice;
        print_call timed_out; reply post_alone failure_notice]
  /\ count is_reply (calls scripted post_alone (first_reply_fails MEMBER))
     <> 1%nat.
Proof.
  repeat split. discriminate.
Qed.

(** A banned user posts without replying to a message. *)
Lemma denial_precedes_usage_check_witness :
  isAuthorized BANNED = false
  /\ (exists rest,
         calls scripted post_alone (all_fine BANNED)
         = ([membership_query post_alone; reply post_alone denial_notice]
              ++ rest)%list)
  /\ hd_error (reply_texts (calls scripted post_alone (all_fine BANNED)))
     = Some denial_notice
  /\ ~ In usage_notice (reply_texts (calls scripted post_alone (all_fine BANNED)))
  /\ filter is_transport_call (calls scripted post_alone (all_fine BANNED))
     = [membership_query post_alone].
Proof.
  split; [reflexivity|].
  apply (denial_precedes_usage_check scripted post_alone {| status := BANNED |}
           (all_fine BANNED) (all_fine BANNED));
    reflexivity.
Defined.

(* ------------------------------------------------------------------ *)
(** * Every run: case analysis on the answers of the service *)
(* ------------------------------------------------------------------ *)

Ltac case_step :=
  match goal with
  | |- context [Z.eqb (chat_id (effective_message ?u)) XECUT_CHAT_ID] =>
      destruct (Z.eqb (chat_id (effective_message u)) XECUT_CHAT_ID) eqn:?Hchat
  | |- context [bot_get_chat_member ?b ?c ?u ?w] =>
      destruct (bot_get_chat_member b c u w) as [[?member|?exc] ?w] eqn:?Hquery
  | |- context [py_in status_eqb ?s ?l] =>
      destruct (py_in status_eqb s l) eqn:?Hauth
  | |- context [reply_to_message ?m] =>
      destruct (reply_to_message m) as [?target|] eqn:?Htarget
  | |- context [bot_send_message ?b ?c ?t ?d ?w] =>
      destruct (bot_send_message b c t d w) as [[?sent|?exc] ?w] eqn:?Hsend
  | |- context [bot_forward_message ?b ?c ?f ?i ?w] =>
      destruct (bot_forward_message b c f i w) as [[?posted|?exc] ?w] eqn:?Hfwd
  | |- context [msg_reply_text ?b ?m ?t ?p ?d ?w] =>
      destruct (msg_reply_text b m t p d w) as [[?answer|?exc] ?w] eqn:?Hreply
  end; reduce_run.

Ltac all_runs := unfold_handler; repeat case_step.

Section EveryRun.

Context {W : Type} (bot : Bot W).

(** X1. No call is ever repeated: a run makes at most one membership query,
    one send, one forward and one print, at most two replies, and at most
    six calls in all. *)
Theorem no_call_is_repeated (update : Update) (w : W) :
  (count is_membership_query (calls bot update w) <= 1)%nat
  /\ (count is_send (calls bot update w) <= 1)%nat
  /\ (count is_forward (calls bot update w) <= 1)%nat
  /\ (count is_print (calls bot update w) <= 1)%nat
  /\ (count is_reply (calls bot update w) <= 2)%nat
  /\ (length (calls bot update w) <= 6)%nat.
Proof.
  all_runs; cbv [count filter is_membership_query is_send is_forward is_print
                 is_reply length]; repeat split; lia.
Qed.

(** X2. Nothing reaches the channel without authorization: when a run makes
    a send or a forward, the event came from the source chat, the membership
    query returned a status that is authorized, and the command was a reply. *)
Theorem relay_requires_authorization (update : Update) (w : W) :
  existsb (fun c => is_send c || is_forward c) (calls bot update w) = true ->
  from_source_chat update
  /\ (exists member w1,
         query_answer bot update w = (Returned member, w1)
         /\ isAuthorized (status member) = true)
  /\ (exists target,
         reply_to_message (effective_message update) = Some target).
Proof.
  unfold_answers. unfold from_source_chat. all_runs;
    cbn [existsb is_send is_forward orb]; intros H; try discriminate H.
  all: split; [apply Z.eqb_eq; assumption|].
  all: split; [eexists _, _; split; [reflexivity | assumption]
              | eexists; reflexivity].
Qed.


(** X4. Every call of every run goes where it should: membership queries
    ask the resident group about the invoking user, sends post the link to
    the reply target in the channel with the preview disabled, forwards take
    the reply target from the source chat to the channel, and replies answer
    the invoking message. *)
Theorem calls_are_addressed (update : Update) (w : W) :
  Forall (addressed update) (calls bot update w).
Proof.
  all_runs; repeat (apply Forall_cons || apply Forall_nil);
    cbn [addressed]; auto.
  all: split; [reflexivity|];
    split; [first [reflexivity | apply Z.eqb_eq; assumption]|];
    eexists; split; [eassumption | reflexivity].
Qed.

(** X5. The failure notice is replied exactly when an error was printed, and
    a printed error is always followed by the failure reply and by nothing
    else. *)
Theorem failure_notice_iff_printed (update : Update) (w : W) :
  ((exists exc, In (print_call exc) (calls bot update w))
   <-> In failure_notice (reply_texts (calls bot update w)))
  /\ (forall exc, In (print_call exc) (calls bot update w) ->
      exists before,
        calls bot update w
        = (before ++ [print_call exc; reply update failure_notice])%list).
Proof.
  all_runs; cbn [reply_texts In reply];
    (split; [split; [intros [exc' H] | intros H] | intros exc' H]).
  all: repeat match goal with
         | H : False |- _ => destruct H
         | H : _ \/ _ |- _ => destruct H as [H|H]
         | H : print_call _ = print_call _ |- _ => injection H as <-
         | H : _ = _ |- _ => discriminate H
         end.
  all: auto 6.
  all: try (eexists; cbn [In]; eauto 8; fail).
  all: match goal with
       | |- exists before, ?l = _ =>
           exists (removelast (removelast l)); reflexivity
       end.
Qed.


(** X7. When the announce and the forward went through and it is the
    success reply that raises, the error is printed and the user is sent the
    failure notice, although the message has been forwarded. *)
Theorem success_reply_failure_reports_error (update : Update)
        (target : Message) (member : ChatMember) (sent posted : Message)
        (exc : Exception) (w w1 w2 w3 w4 : W) :
  from_source_chat update ->
  reply_to_message (effective_message update) = Some target ->
  query_answer bot update w = (Returned member, w1) ->
  isAuthorized (status member) = true ->
  announce_answer bot target w1 = (Returned sent, w2) ->
  forward_answer_at bot update target w2 = (Returned posted, w3) ->
  success_reply_answer bot update posted w3 = (Raised exc, w4) ->
  calls bot update w
  = [membership_query update; announce target; forward update target;
     success_reply update posted; print_call exc;
     reply update failure_notice].
Proof.
  intros Hchat Htarget Hq Hauth Hsend Hfwd Hreply.
  unfold_answers. unfold_handler.
  rewrite (source_chat_eqb _ Hchat). reduce_run.
  rewrite Hq. reduce_run. rewrite Hauth. reduce_run.
  rewrite Htarget. reduce_run. rewrite Hsend. reduce_run.
  rewrite Hfwd. reduce_run. rewrite Hreply. reduce_run.
  destruct (msg_reply_text bot (effective_message update) failure_notice
              None false w4) as [[answer|exc'] w5]; reflexivity.
Qed.

(** X8. A command is answered exactly when it comes from the source chat:
    a run makes no call at all if and only if the event came from another
    chat, and otherwise it starts with the membership query and ends with a
    reply to the invoking message. *)
Theorem answered_iff_source_chat (update : Update) (w : W) :
  (calls bot update w = [] <-> ~ from_source_chat update)
  /\ (from_source_chat update ->
      exists between text parse_mode preview,
        calls bot update w
        = (membership_query update :: between
             ++ [reply_text_call (effective_message update) text parse_mode
                   preview])%list).
Proof.
  unfold from_source_chat. all_runs;
    match goal with
    | Hc : Z.eqb _ _ = true |- _ => apply Z.eqb_eq in Hc
    | Hc : Z.eqb _ _ = false |- _ => apply Z.eqb_neq in Hc
    end.
  all: split; [split; intros H; try discriminate H; try reflexivity; tauto|].
  all: intros H; try contradiction.
  all: match goal with
       | |- exists between _ _ _, ?l = _ =>
           exists (removelast (tl l)); eexists _, _, _; reflexivity
       end.
Qed.

(** X9. What the user is sent: nothing for an event of another chat, and
    otherwise one of the denial notice, the usage notice and the success
    text, possibly followed by the failure notice, or the failure notice
    alone; never more than two replies, never two notices of the [try]
    block. *)
Theorem replies_of_a_run (update : Update) (w : W) :
  match reply_texts (calls bot update w) with
  | [] => ~ from_source_chat update
  | [text] => primary_notice text \/ text = failure_notice
  | [text; text'] => primary_notice text /\ text' = failure_notice
  | _ => False
  end.
Proof.
  unfold from_source_chat, primary_notice.
  all_runs; cbn [reply_texts]; try (apply Z.eqb_neq; assumption).
  all: try (split; [|reflexivity]).
  all: eauto 7.
Qed.

End EveryRun.

(* ------------------------------------------------------------------ *)
(** * The texts of the links *)
(* ------------------------------------------------------------------ *)

Lemma py_str_inj (a b : Z) : py_str a = py_str b -> a = b.
Proof.
  intros H. apply (f_equal parse_int) in H.
  rewrite !parse_int_py_str in H. injection H as H. exact H.
Qed.

(** X10. Links name their message: two announcements, or two success
    replies, have the same text only for the same message id, and an
    announcement is never the text of a success reply. *)
Theorem links_name_their_message (a b : Z) :
  (announce_text a = announce_text b <-> a = b)
  /\ (success_text a = success_text b <-> a = b)
  /\ announce_text a <> success_text b.
Proof.
  split; [|split].
  - split; [|intros ->; reflexivity].
    unfold announce_text. cbn [append]. intros H.
    injection H as H. apply py_str_inj. exact H.
  - split; [|intros ->; reflexivity].
    intros H. apply (f_equal confirmation_link_id) in H.
    rewrite !confirmation_link_id_success_text in H.
    injection H as H. exact H.
  - discriminate.
Qed.

(* ------------------------------------------------------------------ *)
(** * Start-up *)
(* ------------------------------------------------------------------ *)

(** X11. The script starts exactly when XECUT_TG_API_KEY is set to a
    non-empty string: the application is then built with that very token and
    with the handler of the one command [post]; when the variable is unset
    or empty, the [RuntimeError] is raised and no application is built. *)
Theorem startup_needs_nonempty_token (getenv : string -> option string) :
  ((exists app, main getenv = inr app)
   <-> (exists token, getenv "XECUT_TG_API_KEY" = Some token /\ token <> ""))
  /\ (forall app, main getenv = inr app ->
      getenv "XECUT_TG_API_KEY" = Some (app_token app)
      /\ app_commands app = ["post"])
  /\ (forall error, main getenv = inl error ->
      error = RuntimeError "Set XECUT_TG_API_KEY env variable with the bot token"
      /\ (getenv "XECUT_TG_API_KEY" = None
          \/ getenv "XECUT_TG_API_KEY" = Some "")).
Proof.
  unfold main.
  destruct (getenv "XECUT_TG_API_KEY") as [[|c token]|]; cbn [py_not].
  - split; [split|split].
    + intros [app H]. discriminate H.
    + intros [token [H Hne]]. injection H as <-. contradiction.
    + intros app H. discriminate H.
    + intros error H. injection H as <-. auto.
  - split; [split|split].
    + intros _. eexists. split; [reflexivity | discriminate].
    + intros _. eexists. reflexivity.
    + intros app H. injection H as <-. split; reflexivity.
    + intros error H. discriminate H.
  - split; [split|split].
    + intros [app H]. discriminate H.
    + intros [token [H _]]. discriminate H.
    + intros app H. discriminate H.
    + intros error H. injection H as <-. auto.
Qed.

(* ------------------------------------------------------------------ *)
(** * More concrete runs *)
(* ------------------------------------------------------------------ *)

(** A member's relay reaches the channel. *)
Lemma relay_requires_authorization_witness :
  from_source_chat post_as_reply
  /\ (exists member w1,
         query_answer scripted post_as_reply (all_fine MEMBER)
         = (Returned member, w1)
         /\ isAuthorized (status member) = true)
  /\ (exists target,
         reply_to_message (effective_message post_as_reply) = Some target).
Proof.
  apply (relay_requires_authorization scripted post_as_reply (all_fine MEMBER)).
  reflexivity.
Defined.



(** A member's relay goes through and the success reply times out. *)
Lemma success_reply_failure_reports_error_witness :
  calls scripted post_as_reply (first_reply_fails MEMBER)
  = [membership_query post_as_reply; announce original;
     forward post_as_reply original;
     success_reply post_as_reply (bot_message 0 555); print_call timed_out;
     reply post_as_reply failure_notice].
Proof.
  apply (success_reply_failure_reports_error scripted post_as_reply original
           {| status := MEMBER |} (bot_message 0 554) (bot_message 0 555)
           timed_out
           (first_reply_fails MEMBER) (first_reply_fails MEMBER)
           (first_reply_fails MEMBER) (first_reply_fails MEMBER)
           (all_fine MEMBER));
    reflexivity.
Defined.
